(** * Inventory manager (pj3streamlit.py): model and verified properties

    The program keeps one Python list of item dictionaries, shows three
    read-only views of it (filter, summary, chart), lets the user add,
    edit and delete items, and mirrors the list in [inventory.json].

    The model follows the program's own shape:
    - item dictionaries are objects in a heap, the inventory is a list of
      their addresses, so that an in-place edit ([match['price'] = ...]) is
      seen through every reference to the same dictionary;
    - every function of the source is a computation in a small state and
      exception monad over a [World] (heap, inventory list, file system,
      rendered widgets);
    - numbers are exact: prices and ratings are rationals, stocks integers.
      Only comparisons, sums and one division are made on them; rounding of
      binary floating point and the [NaN] value are outside the model;
    - strings are byte strings and [lower] folds the ASCII letters.

    [show_charts] and [main] take no part in the properties below and are
    not modelled. *)

From Stdlib Require Import Ascii String QArith.
From stdpp Require Import gmap list strings.

Set Warnings "-register-all".

Local Open Scope string_scope.
Local Open Scope list_scope.

(** ** Python values of the JSON data model *)

(** What [json.load] can return and [json.dump] can write. A dictionary keeps
    its keys in insertion order. *)
Inductive PyVal : Type :=
| PyNone
| PyBool (b : bool)
| PyInt (z : Z)
| PyFloat (q : Q)
| PyStr (s : string)
| PyList (l : list PyVal)
| PyDict (kvs : list (string * PyVal)).

(** Truth value of an object, as tested by [if data:]. *)
Definition truthy (v : PyVal) : bool :=
  match v with
  | PyNone => false
  | PyBool b => b
  | PyInt z => negb (z =? 0)%Z
  | PyFloat q => negb (Qeq_bool q 0)
  | PyStr s => negb (s =? "")
  | PyList l => negb (length l =? 0)%nat
  | PyDict kvs => negb (length kvs =? 0)%nat
  end.

(** ** Items *)

Record Item : Type := mkItem {
  name : string;
  category : string;
  price : Q;
  stock : Z;
  rating : Q;
}.

#[global] Instance Item_inhabited : Inhabited Item :=
  populate (mkItem "" "" 0 0 0).

(** The dictionary built by the "Add" form, keys in the order of the
    literal. *)
Definition item_to_py (it : Item) : PyVal :=
  PyDict [("name", PyStr (name it));
          ("category", PyStr (category it));
          ("price", PyFloat (price it));
          ("stock", PyInt (stock it));
          ("rating", PyFloat (rating it))].

Definition py_to_item (v : PyVal) : option Item :=
  match v with
  | PyDict [("name", PyStr n); ("category", PyStr c); ("price", PyFloat p);
            ("stock", PyInt s); ("rating", PyFloat r)] => Some (mkItem n c p s r)
  | _ => None
  end.

Definition items_to_py (c : list Item) : PyVal := PyList (map item_to_py c).

Definition py_to_items (v : PyVal) : option (list Item) :=
  match v with
  | PyList l => mapM py_to_item l
  | _ => None
  end.

(** ** Strings and numbers *)

Definition lower_ascii (c : ascii) : ascii :=
  let n := nat_of_ascii c in
  if (65 <=? n)%nat && (n <=? 90)%nat then ascii_of_nat (n + 32) else c.

(** [str.lower()] on ASCII text. *)
Fixpoint lower (s : string) : string :=
  match s with
  | EmptyString => EmptyString
  | String c r => String (lower_ascii c) (lower r)
  end.

(** [x > y] and [x < y] on numbers. *)
Definition Qgtb (x y : Q) : bool := negb (Qle_bool x y).
Definition Qltb (x y : Q) : bool := negb (Qle_bool y x).

(** ** The world *)

Definition addr := nat.

(** [inventory.json] as the [json] module sees it. [JsonText v] is a
    document that [json.load] parses to [v], which is also what
    [json.dump(v, f, indent=2)] writes; [Malformed] is text that is not
    JSON; [Undecodable] is a file whose bytes are not text in the encoding
    the file is opened with. *)
Inductive Document : Type :=
| JsonText (v : PyVal)
| Malformed
| Undecodable.

(** One call of the display layer. *)
Inductive Widget : Type :=
| Subheader (s : string)
| Info (s : string)
| Warning (s : string)
| Success (s : string)
| WriteTotalItems (n : nat)
| WriteAveragePrice (avg : Q)
| WriteHighestRated (nm : string) (r : Q)
| WriteTotalStock (z : Z)
| WriteItem (it : Item).

Record World : Type := mkWorld {
  heap : gmap addr Item;      (* the item dictionaries *)
  inventory : list addr;      (* the list object shared by all views *)
  disk : option Document;     (* inventory.json, [None] when absent *)
  writable : bool;            (* can inventory.json be opened for writing *)
  screen : list Widget;       (* what was rendered, oldest first *)
}.

Definition set_heap (h : gmap addr Item) (w : World) : World :=
  mkWorld h (inventory w) (disk w) (writable w) (screen w).
Definition set_inventory (l : list addr) (w : World) : World :=
  mkWorld (heap w) l (disk w) (writable w) (screen w).
Definition set_disk (d : option Document) (w : World) : World :=
  mkWorld (heap w) (inventory w) d (writable w) (screen w).
Definition set_screen (s : list Widget) (w : World) : World :=
  mkWorld (heap w) (inventory w) (disk w) (writable w) s.

(** The item stored at an address. *)
Definition deref (h : gmap addr Item) (a : addr) : Item := h !!! a.

(** The collection as a sequence of records. *)
Definition contents (w : World) : list Item := map (deref (heap w)) (inventory w).

(** Every element of the list is a live dictionary. *)
Definition wf (w : World) : Prop :=
  Forall (fun a => is_Some (heap w !! a)) (inventory w).

(** ** Computations that may raise *)

Inductive Exn : Type :=
| JSONDecodeError
| UnicodeDecodeError
| FileNotFoundError
| PermissionError
| ZeroDivisionError
| ValueError.

Inductive Outcome (A : Type) : Type :=
| Returns (a : A) (w : World)
| Raises (e : Exn) (w : World).
Arguments Returns {A} a w.
Arguments Raises {A} e w.

Definition Py (A : Type) : Type := World -> Outcome A.

Definition ret {A} (a : A) : Py A := fun w => Returns a w.
Definition raise {A} (e : Exn) : Py A := fun w => Raises e w.
Definition bind {A B} (m : Py A) (k : A -> Py B) : Py B :=
  fun w => match m w with
           | Returns a w' => k a w'
           | Raises e w' => Raises e w'
           end.

Declare Scope py_scope.
Delimit Scope py_scope with py.
Notation "x <- m ;; k" := (bind m (fun x => k))
  (at level 100, m at next level, k at level 200, right associativity) : py_scope.
Notation "m ;;; k" := (bind m (fun _ => k))
  (at level 100, k at level 200, right associativity) : py_scope.
Local Open Scope py_scope.

(** [try: body except <class>: handler]. *)
Definition try_except {A} (body : Py A) (caught : Exn -> bool) (handler : Py A) : Py A :=
  fun w => match body w with
           | Returns a w' => Returns a w'
           | Raises e w' => if caught e then handler w' else Raises e w'
           end.

Definition get {A} (f : World -> A) : Py A := fun w => Returns (f w) w.
Definition modify (f : World -> World) : Py unit := fun w => Returns tt (f w).

(** A call of [st.subheader], [st.info], [st.write], ... *)
Definition say (x : Widget) (w : World) : World := set_screen (screen w ++ [x]) w.
Definition render (x : Widget) : Py unit := modify (say x).

(** The result of a computation that returned. *)
Definition returned {A} (o : Outcome A) : option A :=
  match o with Returns a _ => Some a | Raises _ _ => None end.
Definition final {A} (o : Outcome A) : World :=
  match o with Returns _ w => w | Raises _ w => w end.

(** ** Storage: load_inventory and save_inventory *)

(** [os.path.exists("inventory.json")] *)
Definition os_path_exists : Py bool := get (fun w => bool_decide (is_Some (disk w))).

(** [with open("inventory.json", "r") as f: json.load(f)] *)
Definition json_load : Py PyVal :=
  fun w => match disk w with
           | None => Raises FileNotFoundError w
           | Some (JsonText v) => Returns v w
           | Some Malformed => Raises JSONDecodeError w
           | Some Undecodable => Raises UnicodeDecodeError w
           end.

(** [with open("inventory.json", "w") as f: json.dump(v, f, indent=2)] *)
Definition json_dump (v : PyVal) : Py unit :=
  fun w => if writable w then Returns tt (set_disk (Some (JsonText v)) w)
           else Raises PermissionError w.

(** [except json.JSONDecodeError] *)
Definition is_JSONDecodeError (e : Exn) : bool :=
  match e with JSONDecodeError => true | _ => false end.

Section Storage.

(** [from inventory_data import inventory as fallback_inventory]: the
    module is not part of the sources, its list is a parameter. *)
Variable fallback_inventory : PyVal.

(** The [return data] inside the [try] leaves the function; the other
    paths fall through to [return fallback_inventory]. *)
Definition load_inventory : Py PyVal :=
  ex <- os_path_exists ;;
  early <- (if ex : bool then
              try_except
                (data <- json_load ;;
                 if truthy data then ret (Some data)
                 else render (Info "📁 inventory.json is empty. Using fallback inventory.") ;;;
                      ret None)
                is_JSONDecodeError
                (render (Warning "⚠️ inventory.json is corrupted. Using fallback inventory.") ;;;
                 ret None)
            else
              render (Info "📁 inventory.json not found. Using fallback inventory.") ;;;
              ret None) ;;
  match early with
  | Some data => ret data
  | None => ret fallback_inventory
  end.

End Storage.

(** [json.dump] of a list object: the dictionaries it refers to, in list
    order. *)
Definition to_json (h : gmap addr Item) (l : list addr) : PyVal :=
  items_to_py (map (deref h) l).

(** [save_inventory(inventory)]. Like every view below it is handed a
    reference to the one list object of the session, which the model keeps in
    the world. *)
Definition save_inventory : Py unit :=
  h <- get heap ;;
  l <- get inventory ;;
  json_dump (to_json h l).

(** ** Summary statistics *)

(** [sum(...)]: starts from 0 and adds from left to right. *)
Definition sum_Q (l : list Q) : Q := fold_left Qplus l 0%Q.
Definition sum_Z (l : list Z) : Z := fold_left Z.add l 0%Z.

(** [x / len(...)]: true division, which raises on a zero divisor. *)
Definition truediv (x : Q) (n : nat) : Py Q :=
  if (n =? 0)%nat then raise ZeroDivisionError
  else ret (x / inject_Z (Z.of_nat n))%Q.

(** The scan made by [max(iterable, key=...)]: the running maximum is
    replaced only by a strictly greater key. *)
Fixpoint max_scan {A} (key : A -> Q) (best : A) (rest : list A) : A :=
  match rest with
  | [] => best
  | x :: rest' =>
      if Qgtb (key x) (key best) then max_scan key x rest'
      else max_scan key best rest'
  end.

Definition py_max {A} (key : A -> Q) (l : list A) : Py A :=
  match l with
  | [] => raise ValueError
  | x :: rest => ret (max_scan key x rest)
  end.

Definition show_summary : Py unit :=
  render (Subheader "📊 Summary Statistics") ;;;
  h <- get heap ;;
  inv <- get inventory ;;
  render (WriteTotalItems (length inv)) ;;;
  if negb (length inv =? 0)%nat then
    avg_price <- truediv (sum_Q (map (fun a => price (deref h a)) inv)) (length inv) ;;
    render (WriteAveragePrice avg_price) ;;;
    highest <- py_max (fun a => rating (deref h a)) inv ;;
    render (WriteHighestRated (name (deref h highest)) (rating (deref h highest))) ;;;
    let total_stock := sum_Z (map (fun a => stock (deref h a)) inv) in
    render (WriteTotalStock total_stock)
  else ret tt.

(** ** Filter *)

(** [for x in l: body(x)] *)
Fixpoint for_each {A} (body : A -> Py unit) (l : list A) : Py unit :=
  match l with
  | [] => ret tt
  | x :: rest => body x ;;; for_each body rest
  end.

Section Filter.

(** The values of the four filter widgets. *)
Variables (h : gmap addr Item) (cat : string) (max_price min_rating : Q) (min_stock : Z).

(** The four [continue] tests of the loop body, in source order. *)
Definition skipped (item : addr) : bool :=
  if negb (cat =? "All") && negb (lower (category (deref h item)) =? lower cat) then true
  else if Qgtb max_price 0 && Qgtb (price (deref h item)) max_price then true
  else if Qgtb min_rating 0 && Qltb (rating (deref h item)) min_rating then true
  else if (min_stock >? 0)%Z && (stock (deref h item) <? min_stock)%Z then true
  else false.

(** The loop [for item in inventory: ...; filtered.append(item)], started
    with the list built so far. *)
Fixpoint filter_loop (items filtered : list addr) : list addr :=
  match items with
  | [] => filtered
  | item :: rest =>
      if skipped item then filter_loop rest filtered
      else filter_loop rest (filtered ++ [item])
  end.

End Filter.

(** The options of the category select box are computed from the list but
    do not enter the loop: the selected value is an input like the three
    thresholds. The function returns nothing in the source; the model hands
    back its local list [filtered], which is what the properties are about. *)
Definition filter_inventory (cat : string) (max_price min_rating : Q) (min_stock : Z)
  : Py (list addr) :=
  render (Subheader "🔍 Filter Inventory") ;;;
  h <- get heap ;;
  inv <- get inventory ;;
  let filtered := filter_loop h cat max_price min_rating min_stock inv [] in
  render (Subheader "📋 Filtered Results") ;;;
  (if negb (length filtered =? 0)%nat then
     for_each (fun item => render (WriteItem (deref h item))) filtered
   else render (Info "No items matched your filters.")) ;;;
  ret filtered.

(** ** Add, edit, delete *)

(** The selected action with the values of its widgets. *)
Inductive Action : Type :=
| NoAction
| Add (nm ct : string) (p : Q) (s : Z) (r : Q) (submitted : bool)
| EditByName (text : string) (p : Q) (s : Z) (r : Q) (submitted : bool)
| DeleteByName (text : string) (clicked : bool).

(** [inventory.append({...})]: a new dictionary, referred to from the end of
    the list. *)
Definition append_new (it : Item) : Py unit :=
  modify (fun w =>
    let a := fresh (dom (heap w)) in
    set_inventory (inventory w ++ [a]) (set_heap (<[a := it]> (heap w)) w)).

(** [d[key] = value] on the dictionary at address [a]. *)
Definition setitem (a : addr) (upd : Item -> Item) : Py unit :=
  modify (fun w => set_heap (<[a := upd (deref (heap w) a)]> (heap w)) w).

Definition with_price (p : Q) (it : Item) : Item :=
  mkItem (name it) (category it) p (stock it) (rating it).
Definition with_stock (s : Z) (it : Item) : Item :=
  mkItem (name it) (category it) (price it) s (rating it).
Definition with_rating (r : Q) (it : Item) : Item :=
  mkItem (name it) (category it) (price it) (stock it) r.

(** [item['name'].lower() == key] *)
Definition name_is (h : gmap addr Item) (key : string) (item : addr) : bool :=
  lower (name (deref h item)) =? key.

Definition manage_inventory (action : Action) : Py unit :=
  render (Subheader "✏️ Manage Inventory") ;;;
  match action with
  | NoAction => ret tt
  | Add nm ct p s r submitted =>
      if submitted then
        append_new (mkItem nm ct p s r) ;;;
        save_inventory ;;;
        render (Success "✅ Item added!")
      else ret tt
  | EditByName text p s r submitted =>
      let name_to_edit := lower text in
      h <- get heap ;;
      inv <- get inventory ;;
      (* next((item for item in inventory if ...), None); an item dictionary
         has five keys, so [if match:] only tests that one was found *)
      match find (name_is h name_to_edit) inv with
      | Some match_ =>
          if submitted then
            setitem match_ (with_price p) ;;;
            setitem match_ (with_stock s) ;;;
            setitem match_ (with_rating r) ;;;
            save_inventory ;;;
            render (Success "✅ Item updated!")
          else ret tt
      | None => render (Warning "❌ Item not found.")
      end
  | DeleteByName text clicked =>
      let name_to_delete := lower text in
      if clicked then
        h <- get heap ;;
        inv <- get inventory ;;
        let original_len := length inv in
        modify (set_inventory (List.filter (fun item => negb (name_is h name_to_delete item)) inv)) ;;;
        inv' <- get inventory ;;
        if (length inv' <? original_len)%nat then
          save_inventory ;;;
          render (Success "✅ Item deleted.")
        else render (Warning "❌ Item not found.")
      else ret tt
  end.

(** * Vocabulary of the statements *)

Definition info_empty : Widget :=
  Info "📁 inventory.json is empty. Using fallback inventory.".
Definition warning_corrupted : Widget :=
  Warning "⚠️ inventory.json is corrupted. Using fallback inventory.".
Definition info_not_found : Widget :=
  Info "📁 inventory.json not found. Using fallback inventory.".

(** A session that has rendered nothing yet, with an empty list. *)
Definition boot (d : option Document) (can_write : bool) : World :=
  mkWorld ∅ [] d can_write [].

(** A collection is at least a sequence: a JSON array. *)
Definition is_sequence (v : PyVal) : bool :=
  match v with PyList _ => true | _ => false end.

(** Several widgets rendered one after the other. *)
Definition says (xs : list Widget) (w : World) : World :=
  set_screen (screen w ++ xs) w.

(** The key of [max]: the rating of the item at an address. *)
Definition rating_at (h : gmap addr Item) (a : addr) : Q := rating (deref h a).

(** What [show_summary] renders. *)
Definition summary_widgets (h : gmap addr Item) (inv : list addr) : list Widget :=
  match inv with
  | [] => [Subheader "📊 Summary Statistics"; WriteTotalItems 0]
  | a :: rest =>
      let highest := max_scan (rating_at h) a rest in
      [Subheader "📊 Summary Statistics";
       WriteTotalItems (length inv);
       WriteAveragePrice (sum_Q (map (fun a => price (deref h a)) inv)
                          / inject_Z (Z.of_nat (length inv)));
       WriteHighestRated (name (deref h highest)) (rating (deref h highest));
       WriteTotalStock (sum_Z (map (fun a => stock (deref h a)) inv))]
  end.

(** The filter condition in the words of the specification. *)
Definition keeps (h : gmap addr Item) (cat : string) (max_price min_rating : Q)
    (min_stock : Z) (item : addr) : Prop :=
  (cat = "All" \/ lower (category (deref h item)) = lower cat)
  /\ (max_price <= 0 \/ price (deref h item) <= max_price)%Q
  /\ (min_rating <= 0 \/ min_rating <= rating (deref h item))%Q
  /\ (min_stock <= 0 \/ min_stock <= stock (deref h item))%Z.

(** What [filter_inventory] renders for a given result. *)
Definition filter_widgets (h : gmap addr Item) (filtered : list addr) : list Widget :=
  [Subheader "🔍 Filter Inventory"; Subheader "📋 Filtered Results"]
  ++ match filtered with
     | [] => [Info "No items matched your filters."]
     | _ => map (fun item => WriteItem (deref h item)) filtered
     end.

(** The widgets of the mutation view. *)
Definition manage_header : Widget := Subheader "✏️ Manage Inventory".
Definition not_found : Widget := Warning "❌ Item not found.".
Definition item_added : Widget := Success "✅ Item added!".
Definition item_updated : Widget := Success "✅ Item updated!".
Definition item_deleted : Widget := Success "✅ Item deleted.".

(** The list left by "Delete by Name": the items whose lowered name differs
    from the lowered input. *)
Definition survivors (h : gmap addr Item) (text : string) (inv : list addr) : list addr :=
  List.filter (fun item => negb (name_is h (lower text) item)) inv.

(** An item with its three editable fields replaced. *)
Definition edited (p : Q) (s : Z) (r : Q) (it : Item) : Item :=
  mkItem (name it) (category it) p s r.

(** Sample data. *)
Definition pen : Item := mkItem "Pen" "Office" (3 # 2) 40 (3 # 1).
Definition desk : Item := mkItem "Desk" "Furniture" (120 # 1) 5 (5 # 1).
Definition lamp : Item := mkItem "Lamp" "Furniture" (35 # 1) 12 (5 # 1).
Definition mug : Item := mkItem "Mug" "Kitchen" (7 # 1) 30 (2 # 1).

(** C = [{r:3},{r:5},{r:5},{r:2}] at addresses 0..3. *)
Definition ratings_world : World :=
  mkWorld (list_to_map [(0, pen); (1, desk); (2, lamp); (3, mug)]) [0; 1; 2; 3]
          None true [].

(** C = [{name:"x"},{name:"y"},{name:"x"}] at addresses 0..2. *)
Definition item_x1 : Item := mkItem "x" "Tools" (1 # 1) 1 (1 # 1).
Definition item_y : Item := mkItem "y" "Tools" (2 # 1) 2 (2 # 1).
Definition item_x2 : Item := mkItem "x" "Toys" (3 # 1) 3 (3 # 1).
Definition names_world : World :=
  mkWorld (list_to_map [(0, item_x1); (1, item_y); (2, item_x2)]) [0; 1; 2]
          None true [].

(** A list that refers twice to the same dictionary. *)
Definition aliased_world : World :=
  mkWorld (list_to_map [(0, pen); (1, mug)]) [0; 1; 0] None true [].
(** * The chart view and the view pipeline *)

(** [categories.count(cat)] *)
Definition py_count (cat : string) (categories : list string) : nat :=
  length (List.filter (String.eqb cat) categories).

(** [{cat: categories.count(cat) for cat in set(categories)}]. The order in
    which a set is walked is not fixed; a finite map has none. *)
Definition category_counts (categories : list string) : gmap string nat :=
  list_to_map (map (fun cat => (cat, py_count cat categories)) (remove_dups categories)).

(** [st.bar_chart] draws the dictionary it is given; the model hands that
    dictionary back as the result, [None] when no chart is drawn. *)
Definition show_charts : Py (option (gmap string nat)) :=
  render (Subheader "📈 Category Distribution") ;;;
  h <- get heap ;;
  inv <- get inventory ;;
  let categories := map (fun item => category (deref h item)) inv in
  if negb (length categories =? 0)%nat then ret (Some (category_counts categories))
  else ret None.


(** The widgets rendered between two states of the screen. *)
Definition rendered (w w' : World) : list Widget :=
  drop (length (screen w)) (screen w').

Definition chart_header : Widget := Subheader "📈 Category Distribution".

(** The categories of the collection, in list order. *)
Definition categories_of (w : World) : list string :=
  map (fun item => category (deref (heap w) item)) (inventory w).


(** * Properties *)

(** ** The model at work *)

Example lower_ascii_text : lower "AbC xyZ-09" = "abc xyz-09".
Proof. reflexivity. Qed.

Example truthy_empty_list : truthy (PyList []) = false /\ truthy (PyStr "a") = true.
Proof. split; reflexivity. Qed.

Example filter_furniture_below_100 :
  returned (filter_inventory "furniture" (100 # 1) 0 0 ratings_world) = Some [2].
Proof. reflexivity. Qed.

Example summary_of_ratings_world :
  screen (final (show_summary ratings_world))
  = [Subheader "📊 Summary Statistics"; WriteTotalItems 4; WriteAveragePrice (327 # 8);
     WriteHighestRated "Desk" (5 # 1); WriteTotalStock 87].
Proof. reflexivity. Qed.

(** An edit is made on the dictionary, so it shows at every place of the list
    that refers to it. *)
Example edit_is_in_place :
  contents (final (manage_inventory (EditByName "PEN" (2 # 1) 1 (1 # 1) true) aliased_world))
  = [mkItem "Pen" "Office" (2 # 1) 1 (1 # 1); mug; mkItem "Pen" "Office" (2 # 1) 1 (1 # 1)].
Proof. reflexivity. Qed.

(** ** Storage *)

Lemma py_to_item_to_py it : py_to_item (item_to_py it) = Some it.
Proof. by destruct it. Qed.

Lemma py_to_items_to_py c : py_to_items (items_to_py c) = Some c.
Proof.
  unfold py_to_items, items_to_py.
  induction c as [|it c IH]; [done|].
  cbn [map mapM]. rewrite py_to_item_to_py. cbn. by rewrite IH.
Qed.

Lemma truthy_items_to_py c : truthy (items_to_py c) = negb (length c =? 0)%nat.
Proof. unfold items_to_py. cbn. by rewrite length_map. Qed.

(** What [load_inventory] does on each state of the file. *)
Lemma load_inventory_eval fb w :
  load_inventory fb w =
  match disk w with
  | None => Returns fb (say info_not_found w)
  | Some (JsonText v) => if truthy v then Returns v w else Returns fb (say info_empty w)
  | Some Malformed => Returns fb (say warning_corrupted w)
  | Some Undecodable => Raises UnicodeDecodeError w
  end.
Proof.
  unfold load_inventory, bind, os_path_exists, get, try_except, json_load.
  destruct (disk w) as [[v| |]|] eqn:E; cbn; rewrite ?E; try done.
  by destruct (truthy v).
Qed.

(** X3: [load_inventory] raises on a file that exists but cannot be decoded:
    [UnicodeDecodeError] is not a [json.JSONDecodeError], so the handler
    does not apply. *)
Lemma load_inventory_undecodable fb w :
  disk w = Some Undecodable -> load_inventory fb w = Raises UnicodeDecodeError w.
Proof. intros E. by rewrite load_inventory_eval, E. Qed.

(** C4, as stated, fails. A document holding the JSON string ["abc"] parses
    to a non-empty value and [load_inventory] returns that string, which is
    not a sequence of items; and a file that exists but does not decode as
    text makes [load_inventory] raise instead of falling back. *)
Lemma load_inventory_not_always_collection :
  (let w := boot (Some (JsonText (PyStr "abc"))) true in
   load_inventory (PyList []) w = Returns (PyStr "abc") w
   /\ is_sequence (PyStr "abc") = false)
  /\ (let w := boot (Some Undecodable) true in
      load_inventory (PyList []) w = Raises UnicodeDecodeError w).
Proof. split; [split|]; reflexivity. Qed.

(** C4 (amended): [load_inventory] returns the parsed value, whatever its
    JSON type, when the document exists and parses to a non-empty (truthy)
    value; it returns the fallback dataset, after a notice, when the document
    is missing, parses to an empty (falsy) value, or is not JSON
    ([JSONDecodeError]). In each of these cases it returns normally and
    leaves the heap, the list and the file as they were. *)
Theorem load_inventory_cases (fb : PyVal) (w : World) :
  (disk w = None ->
     load_inventory fb w = Returns fb (say info_not_found w))
  /\ (forall v, disk w = Some (JsonText v) -> truthy v = true ->
     load_inventory fb w = Returns v w)
  /\ (forall v, disk w = Some (JsonText v) -> truthy v = false ->
     load_inventory fb w = Returns fb (say info_empty w))
  /\ (disk w = Some Malformed ->
     load_inventory fb w = Returns fb (say warning_corrupted w)).
Proof.
  rewrite load_inventory_eval.
  repeat split; intros; repeat match goal with H : _ = _ |- _ => rewrite H end; done.
Qed.

Lemma load_inventory_cases_witness :
  load_inventory (PyList []) (boot None true)
    = Returns (PyList []) (say info_not_found (boot None true))
  /\ load_inventory (PyList []) (boot (Some (JsonText (PyList [PyInt 1]))) true)
    = Returns (PyList [PyInt 1]) (boot (Some (JsonText (PyList [PyInt 1]))) true)
  /\ load_inventory (PyList []) (boot (Some (JsonText (PyDict []))) true)
    = Returns (PyList []) (say info_empty (boot (Some (JsonText (PyDict []))) true))
  /\ load_inventory (PyList []) (boot (Some Malformed) true)
    = Returns (PyList []) (say warning_corrupted (boot (Some Malformed) true)).
Proof.
  split; [|split; [|split]].
  - apply (proj1 (load_inventory_cases (PyList []) (boot None true))). reflexivity.
  - apply (proj1 (proj2 (load_inventory_cases (PyList [])
             (boot (Some (JsonText (PyList [PyInt 1]))) true))) (PyList [PyInt 1]));
      reflexivity.
  - apply (proj1 (proj2 (proj2 (load_inventory_cases (PyList [])
             (boot (Some (JsonText (PyDict []))) true)))) (PyDict []));
      reflexivity.
  - apply (proj2 (proj2 (proj2 (load_inventory_cases (PyList [])
             (boot (Some Malformed) true))))). reflexivity.
Defined.

(** C10: when the file exists and parses to any truthy value, that value is
    returned as it is, with no check of its shape: a JSON object and a
    non-empty JSON string come back as the session's inventory. *)
Theorem load_inventory_no_validation (fb : PyVal) :
  (forall w v, disk w = Some (JsonText v) -> truthy v = true ->
     load_inventory fb w = Returns v w)
  /\ (let w := boot (Some (JsonText (PyDict [("k", PyInt 1)]))) true in
      load_inventory fb w = Returns (PyDict [("k", PyInt 1)]) w)
  /\ (let w := boot (Some (JsonText (PyStr "abc"))) true in
      load_inventory fb w = Returns (PyStr "abc") w).
Proof.
  split; [|split; reflexivity].
  intros w v E T. by rewrite load_inventory_eval, E, T.
Qed.

Lemma load_inventory_no_validation_witness :
  load_inventory PyNone (boot (Some (JsonText (PyInt 7))) false)
  = Returns (PyInt 7) (boot (Some (JsonText (PyInt 7))) false).
Proof.
  apply (proj1 (load_inventory_no_validation PyNone)); reflexivity.
Defined.

(** What [save_inventory] does. *)
Lemma save_inventory_eval w :
  save_inventory w =
  if writable w
  then Returns tt (set_disk (Some (JsonText (items_to_py (contents w)))) w)
  else Raises PermissionError w.
Proof. reflexivity. Qed.

(** C5: saving a non-empty collection to a writable file and loading again
    returns a collection equal to the saved one. *)
Theorem save_load_roundtrip (fb : PyVal) (w : World) :
  writable w = true ->
  inventory w <> [] ->
  exists w1 v,
    save_inventory w = Returns tt w1
    /\ load_inventory fb w1 = Returns v w1
    /\ v = items_to_py (contents w)
    /\ py_to_items v = Some (contents w).
Proof.
  intros Hw Hne.
  exists (set_disk (Some (JsonText (items_to_py (contents w)))) w), (items_to_py (contents w)).
  rewrite save_inventory_eval, Hw, load_inventory_eval. cbn [disk set_disk].
  rewrite truthy_items_to_py, py_to_items_to_py.
  unfold contents. rewrite length_map.
  destruct (inventory w); [done|]. done.
Qed.

Lemma save_load_roundtrip_witness :
  exists w1 v,
    save_inventory ratings_world = Returns tt w1
    /\ load_inventory PyNone w1 = Returns v w1
    /\ v = items_to_py (contents ratings_world)
    /\ py_to_items v = Some (contents ratings_world).
Proof.
  apply (save_load_roundtrip PyNone ratings_world); [reflexivity | discriminate].
Defined.


(** ** Summary statistics *)

Lemma say_says x xs w : say x (says xs w) = says (xs ++ [x]) w.
Proof. unfold say, says, set_screen. cbn. by rewrite <- app_assoc. Qed.

Lemma say_one x w : say x w = says [x] w.
Proof. reflexivity. Qed.

Lemma Qgtb_lt x y : Qgtb x y = true <-> (y < x)%Q.
Proof.
  unfold Qgtb. rewrite negb_true_iff, <- not_true_iff_false, Qle_bool_iff.
  split; [apply Qnot_le_lt | apply Qlt_not_le].
Qed.

Lemma Qgtb_le x y : Qgtb x y = false <-> (x <= y)%Q.
Proof. unfold Qgtb. rewrite negb_false_iff. apply Qle_bool_iff. Qed.

Lemma Qltb_lt x y : Qltb x y = true <-> (x < y)%Q.
Proof. apply Qgtb_lt. Qed.

Lemma Qltb_le x y : Qltb x y = false <-> (y <= x)%Q.
Proof. apply Qgtb_le. Qed.

(** The scan keeps the invariant "everything before the running maximum is
    strictly below it, everything after it is at most equal to it". *)
Lemma max_scan_invariant {A} (key : A -> Q) (rest before after : list A) (best : A) :
  Forall (fun x => (key x < key best)%Q) before ->
  Forall (fun x => (key x <= key best)%Q) after ->
  exists l1 l2 : list A,
    before ++ best :: after ++ rest = l1 ++ max_scan key best rest :: l2
    /\ Forall (fun x => (key x < key (max_scan key best rest))%Q) l1
    /\ Forall (fun x => (key x <= key (max_scan key best rest))%Q) l2.
Proof.
  revert before after best.
  induction rest as [|x rest IH]; intros before after best Hb Ha; cbn [max_scan].
  - exists before, after. by rewrite app_nil_r.
  - destruct (Qgtb (key x) (key best)) eqn:E.
    + apply Qgtb_lt in E.
      destruct (IH (before ++ best :: after) [] x) as (l1 & l2 & Heq & H1 & H2).
      * apply Forall_app. split; [|constructor; [done|]].
        -- eapply Forall_impl; [exact Hb|]. cbn. intros y Hy. by eapply Qlt_trans.
        -- eapply Forall_impl; [exact Ha|]. cbn. intros y Hy. by eapply Qle_lt_trans.
      * constructor.
      * exists l1, l2. split; [|done].
        rewrite <- Heq. by rewrite <- app_assoc.
    + apply Qgtb_le in E.
      destruct (IH before (after ++ [x]) best) as (l1 & l2 & Heq & H1 & H2).
      * done.
      * apply Forall_app. split; [done|]. by constructor.
      * exists l1, l2. split; [|done].
        rewrite <- Heq. by rewrite <- app_assoc.
Qed.

(** [max] returns the first element that carries the greatest key. *)
Lemma max_scan_first {A} (key : A -> Q) (x : A) (rest : list A) :
  exists l1 l2 : list A,
    x :: rest = l1 ++ max_scan key x rest :: l2
    /\ Forall (fun y => (key y < key (max_scan key x rest))%Q) l1
    /\ Forall (fun y => (key y <= key (max_scan key x rest))%Q) l2.
Proof. apply (max_scan_invariant key rest [] [] x); constructor. Qed.

Lemma show_summary_eval w :
  show_summary w = Returns tt (says (summary_widgets (heap w) (inventory w)) w).
Proof.
  unfold show_summary, bind, render, modify, get, truediv.
  cbn. destruct (inventory w) as [|a rest] eqn:E; cbn; unfold ret.
  - by rewrite (say_one _ w), say_says.
  - by rewrite (say_one _ w), !say_says.
Qed.

Lemma truediv_zero x w : truediv x 0 w = Raises ZeroDivisionError w.
Proof. reflexivity. Qed.

(** C7: on the empty collection the summary renders the header and the
    count only, no average is computed, and nothing is raised; on every
    collection [show_summary] returns, so the division by the length (which
    does raise on a zero divisor) is only reached with a non-empty list, and
    an average is rendered exactly when the collection is non-empty. *)
Theorem show_summary_no_division_by_zero :
  (forall w, inventory w = [] ->
     show_summary w =
     Returns tt (says [Subheader "📊 Summary Statistics"; WriteTotalItems 0] w))
  /\ (forall w, exists w', show_summary w = Returns tt w')
  /\ (forall w w', show_summary w <> Raises ZeroDivisionError w')
  /\ (forall w,
       show_summary w = Returns tt (says (summary_widgets (heap w) (inventory w)) w)
       /\ ((exists avg, In (WriteAveragePrice avg) (summary_widgets (heap w) (inventory w)))
           <-> inventory w <> []))
  /\ (forall x w, truediv x 0 w = Raises ZeroDivisionError w).
Proof.
  split; [|split; [|split; [|split]]].
  - intros w E. by rewrite show_summary_eval, E.
  - intros w. eexists. apply show_summary_eval.
  - intros w w'. by rewrite show_summary_eval.
  - intros w. split; [apply show_summary_eval|].
    destruct (inventory w) as [|a rest]; cbn.
    + split; [|done]. intros [avg [H|[H|[]]]]; discriminate H.
    + split; [done|]. intros _. eexists. right. right. left. reflexivity.
  - intros x w. apply truediv_zero.
Qed.

Lemma show_summary_no_division_by_zero_witness :
  show_summary (boot None true) =
  Returns tt (says [Subheader "📊 Summary Statistics"; WriteTotalItems 0] (boot None true)).
Proof.
  apply (proj1 show_summary_no_division_by_zero (boot None true)). reflexivity.
Defined.

(** C6: on a non-empty collection the item shown as highest rated carries
    the greatest rating, and it is the first such item in collection order:
    every item before it is rated strictly lower, every item after it at
    most as high. On C = [{r:3},{r:5},{r:5},{r:2}] it is the second
    element. *)
Theorem highest_rated_first_maximum :
  (forall w a rest, inventory w = a :: rest ->
     let h := heap w in
     let highest := max_scan (rating_at h) a rest in
     show_summary w = Returns tt (says (summary_widgets h (inventory w)) w)
     /\ In (WriteHighestRated (name (deref h highest)) (rating (deref h highest)))
           (summary_widgets h (inventory w))
     /\ exists l1 l2 : list addr,
          inventory w = l1 ++ highest :: l2
          /\ Forall (fun x => (rating_at h x < rating_at h highest)%Q) l1
          /\ Forall (fun x => (rating_at h x <= rating_at h highest)%Q) l2)
  /\ (inventory ratings_world = [0; 1; 2; 3]
      /\ map (rating_at (heap ratings_world)) [0; 1; 2; 3] = [3 # 1; 5 # 1; 5 # 1; 2 # 1]
      /\ max_scan (rating_at (heap ratings_world)) 0 [1; 2; 3] = 1
      /\ In (WriteHighestRated "Desk" (5 # 1))
            (summary_widgets (heap ratings_world) (inventory ratings_world))).
Proof.
  split.
  - intros w a rest E h highest. split; [apply show_summary_eval|].
    rewrite E. split.
    + cbn. right. right. right. left. reflexivity.
    + apply max_scan_first.
  - split; [reflexivity|]. split; [reflexivity|]. split; [reflexivity|].
    cbn. right. right. right. left. reflexivity.
Qed.

Lemma highest_rated_first_maximum_witness :
  let h := heap ratings_world in
  let highest := max_scan (rating_at h) 0 [1; 2; 3] in
  show_summary ratings_world
    = Returns tt (says (summary_widgets h (inventory ratings_world)) ratings_world)
  /\ In (WriteHighestRated (name (deref h highest)) (rating (deref h highest)))
        (summary_widgets h (inventory ratings_world))
  /\ exists l1 l2 : list addr,
       inventory ratings_world = l1 ++ highest :: l2
       /\ Forall (fun x => (rating_at h x < rating_at h highest)%Q) l1
       /\ Forall (fun x => (rating_at h x <= rating_at h highest)%Q) l2.
Proof.
  apply (proj1 highest_rated_first_maximum ratings_world 0 [1; 2; 3]). reflexivity.
Defined.

(** ** Filter *)

Lemma says_says xs ys w : says ys (says xs w) = says (xs ++ ys) w.
Proof. unfold says, set_screen. cbn. by rewrite <- app_assoc. Qed.

Lemma for_each_render {A} (f : A -> Widget) (l : list A) (w : World) :
  for_each (fun x => render (f x)) l w = Returns tt (says (map f l) w).
Proof.
  revert w. induction l as [|x l IH]; intros w; cbn [for_each map].
  - unfold ret, says, set_screen. rewrite app_nil_r. by destruct w.
  - unfold bind, render, modify. rewrite IH, (say_one _ w), says_says. done.
Qed.

Lemma negb_eqb_false (x y : string) : negb (x =? y) = false <-> x = y.
Proof. rewrite negb_false_iff. apply String.eqb_eq. Qed.

Lemma Zgtb_false (x y : Z) : (x >? y)%Z = false <-> (x <= y)%Z.
Proof. rewrite Z.gtb_ltb. apply Z.ltb_ge. Qed.

(** The four [continue] tests let an item through exactly when it satisfies
    the four conditions. *)
Lemma skipped_false_iff h cat max_price min_rating min_stock item :
  skipped h cat max_price min_rating min_stock item = false
  <-> keeps h cat max_price min_rating min_stock item.
Proof.
  unfold skipped, keeps.
  set (it := deref h item).
  rewrite <- negb_eqb_false, <- (negb_eqb_false (lower (category it))).
  rewrite <- (Qltb_le (rating it)), <- !Qgtb_le, <- Zgtb_false, <- Z.ltb_ge.
  rewrite <- !andb_false_iff.
  destruct (negb (cat =? "All") && _); [intuition discriminate|].
  destruct (Qgtb max_price 0 && _); [intuition discriminate|].
  destruct (Qgtb min_rating 0 && _); [intuition discriminate|].
  destruct ((min_stock >? 0)%Z && _); intuition discriminate.
Qed.

(** The loop appends the kept items, in order, to what it started with. *)
Lemma filter_loop_filter h cat max_price min_rating min_stock items filtered :
  filter_loop h cat max_price min_rating min_stock items filtered
  = filtered ++ List.filter
                  (fun a => negb (skipped h cat max_price min_rating min_stock a)) items.
Proof.
  revert filtered.
  induction items as [|a items IH]; intros filtered; cbn [filter_loop List.filter].
  - by rewrite app_nil_r.
  - destruct (skipped _ _ _ _ _ a); cbn [negb]; rewrite IH; [done|].
    by rewrite <- app_assoc.
Qed.

Lemma filter_sublist {A} (f : A -> bool) (l : list A) : sublist (List.filter f l) l.
Proof.
  induction l as [|a l IH]; cbn; [constructor|].
  destruct (f a); by constructor.
Qed.

Lemma filter_inventory_eval cat max_price min_rating min_stock w :
  filter_inventory cat max_price min_rating min_stock w =
  let filtered := List.filter (fun a => negb (skipped (heap w) cat max_price min_rating min_stock a))
                              (inventory w) in
  Returns filtered (says (filter_widgets (heap w) filtered) w).
Proof.
  unfold filter_inventory, bind, get.
  change (render (Subheader "🔍 Filter Inventory") w)
    with (Returns tt (says [Subheader "🔍 Filter Inventory"] w)).
  cbv beta iota zeta.
  change (heap (says _ w)) with (heap w).
  change (inventory (says _ w)) with (inventory w).
  rewrite filter_loop_filter. cbn [app].
  set (filtered := List.filter _ _).
  set (w1 := says _ w).
  change (render (Subheader "📋 Filtered Results") w1)
    with (Returns tt (says [Subheader "📋 Filtered Results"] w1)).
  cbv beta iota. subst w1. rewrite says_says. cbn [app].
  unfold filter_widgets.
  destruct filtered as [|a l]; cbn [length Nat.eqb negb].
  - unfold render, modify. by rewrite (say_one _ (says _ w)), says_says.
  - by rewrite for_each_render, says_says.
Qed.

(** C2: the filter keeps an item iff (category is "All" or the item's
    category equals it case-insensitively) and (max_price <= 0 or price <=
    max_price) and (min_rating <= 0 or rating >= min_rating) and (min_stock
    <= 0 or stock >= min_stock); the result is a new list in the original
    order, and the collection (list, items, file) is left as it was. *)
Theorem filter_inventory_keeps cat max_price min_rating min_stock (w : World) :
  exists filtered w',
    filter_inventory cat max_price min_rating min_stock w = Returns filtered w'
    /\ (forall item, In item filtered <->
          In item (inventory w) /\ keeps (heap w) cat max_price min_rating min_stock item)
    /\ filtered = List.filter
                    (fun a => negb (skipped (heap w) cat max_price min_rating min_stock a))
                    (inventory w)
    /\ (forall a, skipped (heap w) cat max_price min_rating min_stock a = false
                  <-> keeps (heap w) cat max_price min_rating min_stock a)
    /\ sublist filtered (inventory w)
    /\ w' = says (filter_widgets (heap w) filtered) w
    /\ inventory w' = inventory w /\ heap w' = heap w /\ disk w' = disk w
    /\ contents w' = contents w.
Proof.
  eexists _, _. split; [apply filter_inventory_eval|]. cbv zeta.
  split; [|split; [done|split; [|split; [|done]]]].
  - intros item. rewrite filter_In, negb_true_iff, skipped_false_iff. done.
  - intros a. apply skipped_false_iff.
  - apply filter_sublist.
Qed.

Lemma skipped_all_zero h a : skipped h "All" 0 0 0 a = false.
Proof. reflexivity. Qed.

(** C3: with category "All" and the three thresholds at 0 the filter
    returns the whole collection, in order. *)
Theorem filter_inventory_all_zero (w : World) :
  filter_inventory "All" 0 0 0 w
  = Returns (inventory w) (says (filter_widgets (heap w) (inventory w)) w).
Proof.
  rewrite filter_inventory_eval. cbv zeta.
  assert (List.filter (fun a => negb (skipped (heap w) "All" 0 0 0 a)) (inventory w)
          = inventory w) as ->; [|done].
  induction (inventory w) as [|a l IH]; cbn [List.filter]; [done|].
  rewrite skipped_all_zero. cbn [negb]. by rewrite IH.
Qed.

(** ** Add, edit, delete *)

(** Two worlds built by the setters are equal when their fields are. *)
Ltac world_eq :=
  unfold say, says, set_disk, set_inventory, set_heap, set_screen; cbn;
  rewrite <- ?app_assoc; done.

Lemma render_eval x w : render x w = Returns tt (say x w).
Proof. reflexivity. Qed.

Lemma filter_length_le {A} (f : A -> bool) (l : list A) :
  (length (List.filter f l) <= length l)%nat.
Proof.
  induction l as [|a l IH]; cbn; [lia|]. destruct (f a); cbn; lia.
Qed.

Lemma filter_same_length {A} (f : A -> bool) (l : list A) :
  length (List.filter f l) = length l -> List.filter f l = l.
Proof.
  induction l as [|a l IH]; cbn; [done|].
  destruct (f a); cbn; intros E.
  - f_equal. apply IH. lia.
  - pose proof (filter_length_le f l). lia.
Qed.

(** An action that was selected but not triggered renders the header only. *)
Lemma untriggered nm ct text p s r w :
  manage_inventory NoAction w = Returns tt (say manage_header w)
  /\ manage_inventory (Add nm ct p s r false) w = Returns tt (say manage_header w)
  /\ manage_inventory (DeleteByName text false) w = Returns tt (say manage_header w).
Proof. repeat split. Qed.

(** What the "Delete" button does. *)
Lemma delete_eval text w :
  manage_inventory (DeleteByName text true) w =
  let inv' := survivors (heap w) text (inventory w) in
  let w1 := set_inventory inv' (say manage_header w) in
  if (length inv' <? length (inventory w))%nat then
    if writable w
    then Returns tt (say item_deleted
                       (set_disk (Some (JsonText (items_to_py (map (deref (heap w)) inv')))) w1))
    else Raises PermissionError w1
  else Returns tt (say not_found w1).
Proof.
  unfold manage_inventory, bind. rewrite render_eval. cbn -[Nat.ltb].
  fold (survivors (heap w) text (inventory w)).
  destruct (_ <? _)%nat; [|done].
  unfold json_dump. cbn.
  by destruct (writable w).
Qed.

(** C1: "Delete by Name" removes every item whose name matches the input
    case-insensitively and keeps the others in their order; when the length
    is unchanged it reports not-found and writes nothing, otherwise it
    writes the shortened collection to the file. On
    C = [{name:"x"},{name:"y"},{name:"x"}], deleting "x" leaves [{name:"y"}]. *)
Theorem delete_by_name_removes_all (text : string) (w : World) :
  let h := heap w in
  let inv' := survivors h text (inventory w) in
  let o := manage_inventory (DeleteByName text true) w in
  (inventory (final o) = inv' /\ heap (final o) = h)
  /\ (forall a, In a inv' <->
         In a (inventory w) /\ lower (name (deref h a)) <> lower text)
  /\ sublist inv' (inventory w)
  /\ (length inv' = length (inventory w) ->
        o = Returns tt (says [manage_header; not_found] w))
  /\ (length inv' <> length (inventory w) -> writable w = true ->
        o = Returns tt
              (says [manage_header; item_deleted]
                 (set_disk (Some (JsonText (items_to_py (map (deref h) inv'))))
                    (set_inventory inv' w))))
  /\ (contents names_world = [item_x1; item_y; item_x2]
      /\ manage_inventory (DeleteByName "x" true) names_world
         = Returns tt
             (says [manage_header; item_deleted]
                (set_disk (Some (JsonText (items_to_py [item_y])))
                   (set_inventory [1] names_world)))
      /\ contents (final (manage_inventory (DeleteByName "x" true) names_world))
         = [item_y]).
Proof.
  intros h inv' o.
  assert (Ho : o = manage_inventory (DeleteByName text true) w) by done.
  rewrite delete_eval in Ho. cbv zeta in Ho. fold h inv' in Ho.
  pose proof (filter_length_le (fun item => negb (name_is h (lower text) item)) (inventory w)) as Hle.
  fold (survivors h text (inventory w)) in Hle. fold inv' in Hle.
  split; [|split; [|split; [|split; [|split]]]].
  - rewrite Ho. destruct (_ <? _)%nat; [destruct (writable w)|]; done.
  - intros a. subst inv'. unfold survivors, name_is.
    rewrite filter_In, negb_true_iff, String.eqb_neq. done.
  - apply filter_sublist.
  - intros E. rewrite Ho.
    destruct (Nat.ltb_spec (length inv') (length (inventory w))) as [Hlt|_]; [lia|].
    apply filter_same_length in E. change (inv' = inventory w) in E.
    rewrite E. clear. destruct w. world_eq.
  - intros E Hw. rewrite Ho, Hw.
    destruct (Nat.ltb_spec (length inv') (length (inventory w))) as [_|Hge]; [|lia].
    world_eq.
  - split; [reflexivity|]. split; reflexivity.
Qed.

Lemma delete_by_name_removes_all_witness :
  manage_inventory (DeleteByName "X" true) names_world
  = Returns tt
      (says [manage_header; item_deleted]
         (set_disk (Some (JsonText (items_to_py (map (deref (heap names_world))
                      (survivors (heap names_world) "X" (inventory names_world))))))
            (set_inventory (survivors (heap names_world) "X" (inventory names_world))
                           names_world)))
  /\ manage_inventory (DeleteByName "z" true) names_world
    = Returns tt (says [manage_header; not_found] names_world).
Proof.
  split.
  - apply (proj1 (proj2 (proj2 (proj2 (proj2 (delete_by_name_removes_all "X" names_world)))))).
    + vm_compute. discriminate.
    + reflexivity.
  - apply (proj1 (proj2 (proj2 (proj2 (delete_by_name_removes_all "z" names_world))))).
    reflexivity.
Defined.

(** What the submitted "Add" form does. *)
Lemma add_eval nm ct p s r w :
  manage_inventory (Add nm ct p s r true) w =
  let a := fresh (dom (heap w)) in
  let w1 := set_inventory (inventory w ++ [a])
              (set_heap (<[a := mkItem nm ct p s r]> (heap w)) (say manage_header w)) in
  if writable w
  then Returns tt (say item_added
                     (set_disk (Some (JsonText (items_to_py (contents w1)))) w1))
  else Raises PermissionError w1.
Proof.
  unfold manage_inventory, bind. rewrite render_eval. cbn.
  unfold json_dump. cbn. by destruct (writable w).
Qed.

(** A new dictionary gets an address no element of the list has. *)
Lemma fresh_not_in_inventory w : wf w -> ~ In (fresh (dom (heap w))) (inventory w).
Proof.
  unfold wf. rewrite Forall_forall. intros Hwf Hin.
  apply list_elem_of_In, Hwf, elem_of_dom in Hin.
  by apply is_fresh in Hin.
Qed.

Lemma deref_insert_eq h a it : deref (<[a := it]> h) a = it.
Proof. apply lookup_total_insert_eq. Qed.

Lemma deref_insert_ne h a b it : a <> b -> deref (<[a := it]> h) b = deref h b.
Proof. apply lookup_total_insert_ne. Qed.

Lemma map_deref_insert_fresh h a it (l : list addr) :
  ~ In a l -> map (deref (<[a := it]> h)) l = map (deref h) l.
Proof.
  intros Hn. apply map_ext_in. intros b Hb. apply deref_insert_ne.
  intros ->. done.
Qed.

(** The list and the heap after a submitted "Add", saved or not. *)
Lemma add_final nm ct p s r w :
  let w' := final (manage_inventory (Add nm ct p s r true) w) in
  inventory w' = inventory w ++ [fresh (dom (heap w))]
  /\ heap w' = <[fresh (dom (heap w)) := mkItem nm ct p s r]> (heap w).
Proof. cbv zeta. rewrite add_eval. cbv zeta. by destruct (writable w). Qed.

Lemma add_wf nm ct p s r w :
  wf w -> wf (final (manage_inventory (Add nm ct p s r true) w)).
Proof.
  intros Hwf. destruct (add_final nm ct p s r w) as [Hinv Hheap].
  unfold wf. rewrite Hinv, Hheap. apply Forall_app. split.
  - eapply Forall_impl; [exact Hwf|]. cbn. intros b Hb.
    rewrite lookup_insert_is_Some. destruct (decide (fresh (dom (heap w)) = b)); auto.
  - constructor; [|constructor]. rewrite lookup_insert_eq. eauto.
Qed.

(** C8: a submitted "Add" puts the candidate at the end of the collection,
    which grows by exactly one, leaves every existing element as it was, and
    then saves the collection; nothing depends on the names already present
    (nor on the ranges of the candidate's numbers). With a writable file the
    saved document, loaded again, ends with the candidate. *)
Theorem add_appends_and_saves nm ct p s r (w : World) :
  wf w ->
  let cand := mkItem nm ct p s r in
  let o := manage_inventory (Add nm ct p s r true) w in
  let w' := final o in
  contents w' = contents w ++ [cand]
  /\ length (contents w') = S (length (contents w))
  /\ (exists a, inventory w' = inventory w ++ [a] /\ ~ In a (inventory w)
               /\ heap w' = <[a := cand]> (heap w))
  /\ (forall b, In b (inventory w) -> deref (heap w') b = deref (heap w) b)
  /\ wf w'
  /\ (writable w = true ->
        o = Returns tt w'
        /\ disk w' = Some (JsonText (items_to_py (contents w ++ [cand])))
        /\ screen w' = screen w ++ [manage_header; item_added]
        /\ forall fb, load_inventory fb w'
                      = Returns (items_to_py (contents w ++ [cand])) w')
  /\ (writable w = false -> o = Raises PermissionError w' /\ disk w' = disk w).
Proof.
  intros Hwf cand o w'.
  pose proof (fresh_not_in_inventory w Hwf) as Hfresh.
  assert (Ho : o = manage_inventory (Add nm ct p s r true) w) by done.
  rewrite add_eval in Ho. cbv zeta in Ho.
  set (a := fresh (dom (heap w))) in *.
  set (w1 := set_inventory _ _) in Ho.
  assert (Hc1 : contents w1 = contents w ++ [cand]).
  { unfold contents, w1. cbn. rewrite map_app. cbn.
    by rewrite deref_insert_eq, map_deref_insert_fresh. }
  destruct (add_final nm ct p s r w) as [Hinv Hheap]. fold o w' a cand in Hinv, Hheap.
  assert (Hc : contents w' = contents w ++ [cand]).
  { unfold contents in *. by rewrite Hinv, Hheap. }
  split; [done|]. split.
  { rewrite Hc, length_app. cbn. lia. }
  split; [by exists a|]. split.
  { intros b Hb. rewrite Hheap. apply deref_insert_ne. by intros ->. }
  split; [by apply add_wf|].
  split.
  - intros Hw. unfold w'. rewrite Ho, Hw. cbn [final].
    split; [done|]. split; [by rewrite Hc1|]. split; [world_eq|].
    intros fb. rewrite load_inventory_eval. cbn [disk say set_disk set_screen].
    rewrite truthy_items_to_py, Hc1, length_app. cbn [length].
    by replace (length (contents w) + 1)%nat with (S (length (contents w))) by lia.
  - intros Hw. unfold w'. rewrite Ho, Hw. done.
Qed.

Lemma wf_names_world : wf names_world.
Proof. unfold wf. cbn. repeat constructor; by eexists. Qed.

Lemma add_appends_and_saves_witness :
  wf names_world
  /\ contents (final (manage_inventory (Add "x" "Tools" (1 # 1) 1 (1 # 1) true) names_world))
     = contents names_world ++ [mkItem "x" "Tools" (1 # 1) 1 (1 # 1)].
Proof.
  split; [exact wf_names_world|].
  exact (proj1 (add_appends_and_saves "x" "Tools" (1 # 1) 1%Z (1 # 1) names_world
                  wf_names_world)).
Defined.

(** [next(...)] stops at the first element that passes the test. *)
Lemma find_first {A} (f : A -> bool) (l1 l2 : list A) (x : A) :
  Forall (fun y => f y = false) l1 -> f x = true -> find f (l1 ++ x :: l2) = Some x.
Proof.
  induction 1 as [|y l1 Hy _ IH]; intros Hx; cbn.
  - by rewrite Hx.
  - rewrite Hy. by apply IH.
Qed.

Lemma find_nothing {A} (f : A -> bool) (l : list A) :
  Forall (fun y => f y = false) l -> find f l = None.
Proof. induction 1 as [|y l Hy _ IH]; cbn; [done|]. by rewrite Hy. Qed.

Lemma name_is_true h key a : name_is h key a = true <-> lower (name (deref h a)) = key.
Proof. apply String.eqb_eq. Qed.

Lemma name_is_false h key a : name_is h key a = false <-> lower (name (deref h a)) <> key.
Proof. apply String.eqb_neq. Qed.

(** What "Edit by Name" does. *)
Lemma edit_eval text p s r submitted w :
  manage_inventory (EditByName text p s r submitted) w =
  match find (name_is (heap w) (lower text)) (inventory w) with
  | None => Returns tt (says [manage_header; not_found] w)
  | Some m =>
      if submitted then
        let w1 := set_heap (<[m := edited p s r (deref (heap w) m)]> (heap w))
                           (say manage_header w) in
        if writable w
        then Returns tt (say item_updated
                           (set_disk (Some (JsonText (items_to_py (contents w1)))) w1))
        else Raises PermissionError w1
      else Returns tt (say manage_header w)
  end.
Proof.
  unfold manage_inventory, bind. rewrite render_eval. cbn.
  destruct (find _ _) as [m|]; [|by rewrite render_eval, (say_one _ w), say_says].
  destruct submitted; [|done].
  cbn. rewrite !deref_insert_eq, !insert_insert_eq.
  unfold json_dump, with_rating, with_stock, with_price, edited. cbn.
  by destruct (writable w).
Qed.

(** C9: "Edit by Name" acts on the first item whose name matches the input
    case-insensitively. When no item matches, not-found is reported and the
    items, the list and the file are what they were. When [m] is the first
    match and the form is submitted, the dictionary at [m] gets the new
    price, stock and rating and keeps its name and category, every other
    dictionary and the list are unchanged, and the collection is saved. *)
Theorem edit_by_name_frame text p s r (w : World) :
  let h := heap w in
  let key := lower text in
  (forall submitted,
     Forall (fun a => lower (name (deref h a)) <> key) (inventory w) ->
     manage_inventory (EditByName text p s r submitted) w
     = Returns tt (says [manage_header; not_found] w))
  /\ (forall l1 m l2,
       inventory w = l1 ++ m :: l2 ->
       Forall (fun a => lower (name (deref h a)) <> key) l1 ->
       lower (name (deref h m)) = key ->
       let o := manage_inventory (EditByName text p s r true) w in
       let w' := final o in
       heap w' = <[m := edited p s r (deref h m)]> h
       /\ deref (heap w') m = mkItem (name (deref h m)) (category (deref h m)) p s r
       /\ (forall a, a <> m -> heap w' !! a = h !! a)
       /\ inventory w' = inventory w
       /\ (writable w = true ->
             o = Returns tt w'
             /\ disk w' = Some (JsonText (items_to_py (contents w')))
             /\ screen w' = screen w ++ [manage_header; item_updated])
       /\ (writable w = false -> o = Raises PermissionError w' /\ disk w' = disk w)
       /\ manage_inventory (EditByName text p s r false) w
          = Returns tt (say manage_header w)).
Proof.
  intros h key. split.
  - intros submitted Hnone. rewrite edit_eval.
    rewrite find_nothing; [done|].
    eapply Forall_impl; [exact Hnone|]. intros a Ha. by apply name_is_false.
  - intros l1 m l2 Hinv Hl1 Hm o w'.
    assert (Hfind : find (name_is h key) (inventory w) = Some m).
    { rewrite Hinv. apply find_first; [|by apply name_is_true].
      eapply Forall_impl; [exact Hl1|]. intros a Ha. by apply name_is_false. }
    assert (Ho : o = manage_inventory (EditByName text p s r true) w) by done.
    rewrite edit_eval in Ho. fold h key in Ho. rewrite Hfind in Ho. cbv zeta in Ho.
    assert (Hheap : heap w' = <[m := edited p s r (deref h m)]> h).
    { unfold w'. rewrite Ho. by destruct (writable w). }
    split; [done|]. split; [by rewrite Hheap, deref_insert_eq|].
    split; [intros a Ha; by rewrite Hheap, lookup_insert_ne|].
    split; [unfold w'; rewrite Ho; by destruct (writable w)|].
    split; [|split].
    + intros Hw. unfold w'. rewrite Ho, Hw. cbn [final].
      split; [done|]. split; [done|]. world_eq.
    + intros Hw. unfold w'. rewrite Ho, Hw. done.
    + rewrite edit_eval. fold h key. by rewrite Hfind.
Qed.

Lemma edit_by_name_frame_witness :
  manage_inventory (EditByName "q" (9 # 1) 9 (4 # 1) true) names_world
    = Returns tt (says [manage_header; not_found] names_world)
  /\ heap (final (manage_inventory (EditByName "X" (9 # 1) 9 (4 # 1) true) names_world))
     = <[0 := edited (9 # 1) 9 (4 # 1) (deref (heap names_world) 0)]> (heap names_world).
Proof.
  split.
  - apply (proj1 (edit_by_name_frame "q" (9 # 1) 9%Z (4 # 1) names_world) true).
    cbn. repeat constructor; discriminate.
  - refine (proj1 (proj2 (edit_by_name_frame "X" (9 # 1) 9%Z (4 # 1) names_world)
                    [] 0 [1; 2] _ _ _)); [reflexivity | constructor | reflexivity].
Defined.

(** ** The list only ever refers to live dictionaries *)

Lemma wf_say x w : wf w -> wf (say x w).
Proof. done. Qed.

Lemma wf_insert a it w : wf w -> wf (set_heap (<[a := it]> (heap w)) w).
Proof.
  unfold wf. cbn. intros Hwf. eapply Forall_impl; [exact Hwf|]. cbn.
  intros b Hb. rewrite lookup_insert_is_Some. destruct (decide (a = b)); auto.
Qed.

Lemma manage_inventory_wf action w : wf w -> wf (final (manage_inventory action w)).
Proof.
  intros Hwf. destruct action as [|nm ct p s r [|]|text p s r sub|text [|]]; try done.
  - by apply add_wf.
  - rewrite edit_eval. destruct (find _ _) as [m|]; [|done].
    destruct sub; [|done]. cbv zeta.
    pose proof (wf_insert m (edited p s r (deref (heap w) m)) w Hwf) as H.
    by destruct (writable w).
  - rewrite delete_eval. cbv zeta.
    assert (H : wf (set_inventory (survivors (heap w) text (inventory w)) w)).
    { unfold wf in *. cbn. rewrite Forall_forall in *. intros a Ha.
      apply Hwf. apply list_elem_of_In. apply list_elem_of_In in Ha.
      unfold survivors in Ha. by apply filter_In in Ha as [? _]. }
    destruct (_ <? _)%nat; [destruct (writable w)|]; done.
Qed.

(** * Further properties *)

(** ** Storage *)

Lemma rendered_same w : rendered w w = [].
Proof. unfold rendered. apply drop_all. Qed.

Lemma rendered_says xs w : rendered w (says xs w) = xs.
Proof. unfold rendered, says. cbn. by rewrite drop_app_length. Qed.

Lemma rendered_say x w : rendered w (say x w) = [x].
Proof. apply (rendered_says [x]). Qed.

(** X1: [load_inventory] only reads. Whatever the state of the file
    (missing, empty, not JSON, undecodable), the file, the list and the
    items are afterwards what they were, and at most one notice is
    rendered: falling back never creates or repairs inventory.json. *)
Theorem load_inventory_read_only (fb : PyVal) (w : World) :
  let w' := final (load_inventory fb w) in
  disk w' = disk w /\ writable w' = writable w
  /\ heap w' = heap w /\ inventory w' = inventory w
  /\ (length (rendered w w') <= 1)%nat.
Proof.
  cbv zeta. rewrite load_inventory_eval.
  destruct (disk w) as [[v| |]|] eqn:E; [destruct (truthy v)| | |]; cbn [final];
    rewrite ?rendered_same, ?rendered_say; cbn [length]; (split; [done|]);
    (split; [done|]); (split; [done|]); (split; [done|]); lia.
Qed.


Lemma load_inventory_undecodable_witness :
  load_inventory PyNone (boot (Some Undecodable) false)
  = Raises UnicodeDecodeError (boot (Some Undecodable) false).
Proof. apply (load_inventory_undecodable PyNone (boot (Some Undecodable) false)). reflexivity. Defined.

(** ** The category chart *)

Lemma show_charts_eval w :
  show_charts w =
  Returns (match inventory w with
           | [] => None
           | _ => Some (category_counts (categories_of w))
           end) (say chart_header w).
Proof.
  unfold show_charts, bind. rewrite render_eval. cbn.
  unfold categories_of. by destruct (inventory w).
Qed.

Lemma py_count_cons c x l :
  py_count c (x :: l) = ((if String.eqb c x then 1 else 0) + py_count c l)%nat.
Proof. unfold py_count. cbn. by destruct (c =? x). Qed.

Lemma py_count_pos c l : c ∈ l <-> (0 < py_count c l)%nat.
Proof.
  induction l as [|x l IH]; [rewrite elem_of_nil; cbn; lia|].
  rewrite py_count_cons, elem_of_cons, IH.
  destruct (String.eqb_spec c x); [intuition lia|]. cbn. intuition.
Qed.

Lemma py_count_perm c (l l' : list string) : l ≡ₚ l' -> py_count c l = py_count c l'.
Proof.
  induction 1 as [|x l l' _ IH|x y l|l l' l'' _ IH1 _ IH2];
    rewrite ?py_count_cons; lia.
Qed.

(** A key of the dictionary is a category that occurs; its value is the
    number of occurrences. *)
Lemma category_counts_lookup (cats : list string) (c : string) :
  category_counts cats !! c
  = if decide (py_count c cats = 0)%nat then None else Some (py_count c cats).
Proof.
  unfold category_counts. case_decide as Hz.
  - apply not_elem_of_list_to_map_1.
    rewrite <- list_fmap_compose, list_fmap_id.
    rewrite elem_of_remove_dups, py_count_pos. cbn. lia.
  - apply elem_of_list_to_map_1.
    + rewrite <- list_fmap_compose, list_fmap_id. apply NoDup_remove_dups.
    + apply list_elem_of_fmap. exists c. split; [done|].
      apply elem_of_remove_dups, py_count_pos. lia.
Qed.

Lemma sum_indicator (x : string) (ks : list string) :
  NoDup ks -> x ∈ ks -> sum_list_with (fun c => if String.eqb c x then 1 else 0)%nat ks = 1%nat.
Proof.
  induction 1 as [|k ks Hk Hnd IH]; [by rewrite elem_of_nil|].
  rewrite elem_of_cons. cbn. destruct (String.eqb_spec k x) as [->|Hne].
  - intros _. assert (sum_list_with (fun c => if String.eqb c x then 1 else 0)%nat ks = 0%nat) as ->; [|done].
    clear IH Hnd. induction ks as [|k ks IH]; [done|]. cbn.
    rewrite not_elem_of_cons in Hk. destruct Hk as [Hne Hk].
    destruct (String.eqb_spec k x); [congruence|]. by apply IH.
  - intros [->|Hin]; [done|]. by rewrite IH.
Qed.

Lemma sum_py_count (ks l : list string) :
  NoDup ks -> (forall x, x ∈ l -> x ∈ ks) ->
  sum_list_with (fun c => py_count c l) ks = length l.
Proof.
  intros Hnd. induction l as [|x l IH]; intros Hin.
  - clear. induction ks as [|k ks IHk]; [done|]. cbn in *. by rewrite IHk.
  - transitivity (sum_list_with (fun c => if String.eqb c x then 1 else 0)%nat ks
                  + sum_list_with (fun c => py_count c l) ks)%nat.
    + clear. induction ks as [|k ks IHk]; [done|]. cbn [sum_list_with].
      rewrite py_count_cons, IHk. lia.
    + rewrite sum_indicator, IH; [done| |done|].
      * intros y Hy. apply Hin. by right.
      * apply Hin. by left.
Qed.

Lemma category_counts_total (cats : list string) :
  sum_list_with snd (map_to_list (category_counts cats)) = length cats.
Proof.
  unfold category_counts. rewrite map_to_list_to_map.
  - rewrite <- (sum_py_count (remove_dups cats) cats).
    + induction (remove_dups cats) as [|k ks IH]; [done|].
      cbn [map sum_list_with snd]. by rewrite IH.
    + apply NoDup_remove_dups.
    + intros x. by rewrite elem_of_remove_dups.
  - rewrite <- list_fmap_compose, list_fmap_id. apply NoDup_remove_dups.
Qed.

(** X4: the category chart is drawn exactly when the collection is not
    empty; its dictionary has one key for each category spelled exactly as
    some item spells it (no case folding), the value being the number of
    items with that spelling; nothing but the header is rendered and the
    collection is untouched. *)
Theorem show_charts_counts (w : World) :
  exists chart,
    show_charts w = Returns chart (say chart_header w)
    /\ (chart = None <-> inventory w = [])
    /\ forall m, chart = Some m ->
         forall c, m !! c
                   = if decide (py_count c (categories_of w) = 0)%nat then None
                     else Some (py_count c (categories_of w)).
Proof.
  eexists. split; [apply show_charts_eval|]. split.
  - by destruct (inventory w).
  - intros m Hm c. destruct (inventory w) eqn:E; [done|].
    injection Hm as <-. apply category_counts_lookup.
Qed.

(** X5: the bars of the chart add up to the number of items: every item is
    counted once, under its own category. *)
Theorem show_charts_total (w : World) (m : gmap string nat) :
  returned (show_charts w) = Some (Some m) ->
  sum_list_with snd (map_to_list m) = length (inventory w).
Proof.
  rewrite show_charts_eval. cbn. destruct (inventory w) eqn:E; [done|].
  intros [= <-]. rewrite category_counts_total. unfold categories_of.
  by rewrite length_map, E.
Qed.

Lemma show_charts_total_witness :
  sum_list_with snd (map_to_list (category_counts (categories_of ratings_world)))
  = length (inventory ratings_world).
Proof.
  apply (show_charts_total ratings_world (category_counts (categories_of ratings_world))).
  reflexivity.
Defined.

(** X6: the chart does not depend on the order of the collection: two
    lists over the same items that are permutations of each other give the
    same dictionary. *)
Theorem show_charts_order_free (w1 w2 : World) :
  heap w1 = heap w2 ->
  inventory w1 ≡ₚ inventory w2 ->
  returned (show_charts w1) = returned (show_charts w2).
Proof.
  intros Hh Hp. rewrite !show_charts_eval. cbn.
  assert (Hc : categories_of w1 ≡ₚ categories_of w2).
  { unfold categories_of. rewrite Hh. by apply Permutation_map. }
  destruct (inventory w1) as [|a l] eqn:E1, (inventory w2) as [|b k] eqn:E2.
  - done.
  - by apply Permutation_nil_cons in Hp.
  - symmetry in Hp. by apply Permutation_nil_cons in Hp.
  - do 2 f_equal. apply map_eq. intros c. rewrite !category_counts_lookup.
    by rewrite (py_count_perm c _ _ Hc).
Qed.

Lemma show_charts_order_free_witness :
  returned (show_charts ratings_world)
  = returned (show_charts (set_inventory [3; 2; 1; 0] ratings_world)).
Proof.
  apply (show_charts_order_free ratings_world (set_inventory [3; 2; 1; 0] ratings_world)).
  - reflexivity.
  - cbn. apply (Permutation_rev [0; 1; 2; 3]).
Defined.

(** ** Filter *)

Lemma filter_inventory_returned cat max_price min_rating min_stock w :
  returned (filter_inventory cat max_price min_rating min_stock w)
  = Some (List.filter
            (fun a => negb (skipped (heap w) cat max_price min_rating min_stock a))
            (inventory w)).
Proof. by rewrite filter_inventory_eval. Qed.

Lemma In_filter_keeps h cat max_price min_rating min_stock (l : list addr) item :
  In item (List.filter (fun a => negb (skipped h cat max_price min_rating min_stock a)) l)
  <-> In item l /\ keeps h cat max_price min_rating min_stock item.
Proof. by rewrite filter_In, negb_true_iff, skipped_false_iff. Qed.

Lemma filter_sublist_impl {A} (f g : A -> bool) (l : list A) :
  (forall x, f x = true -> g x = true) ->
  sublist (List.filter f l) (List.filter g l).
Proof.
  intros Hfg. induction l as [|a l IH]; cbn; [constructor|].
  destruct (f a) eqn:Ef.
  - rewrite (Hfg a Ef). by constructor.
  - destruct (g a); [by constructor|done].
Qed.

Lemma keeps_category_only h cat item :
  keeps h cat 0 0 0 item <-> (cat = "All" \/ lower (category (deref h item)) = lower cat).
Proof.
  unfold keeps. split; [by intros (? & _)|]. intros Hc.
  split; [done|]. split; [left; apply Qle_refl|].
  split; [left; apply Qle_refl|left; apply Z.le_refl].
Qed.

Lemma keeps_price_only h max_price item :
  keeps h "All" max_price 0 0 item
  <-> (max_price <= 0 \/ price (deref h item) <= max_price)%Q.
Proof.
  unfold keeps. split; [by intros (_ & ? & _)|]. intros Hp.
  split; [by left|]. split; [done|].
  split; [left; apply Qle_refl|left; apply Z.le_refl].
Qed.

Lemma keeps_rating_only h min_rating item :
  keeps h "All" 0 min_rating 0 item
  <-> (min_rating <= 0 \/ min_rating <= rating (deref h item))%Q.
Proof.
  unfold keeps. split; [by intros (_ & _ & ? & _)|]. intros Hr.
  split; [by left|]. split; [left; apply Qle_refl|].
  split; [done|left; apply Z.le_refl].
Qed.

Lemma keeps_stock_only h min_stock item :
  keeps h "All" 0 0 min_stock item
  <-> (min_stock <= 0 \/ min_stock <= stock (deref h item))%Z.
Proof.
  unfold keeps. split; [by intros (_ & _ & _ & ?)|]. intros Hs.
  split; [by left|]. split; [left; apply Qle_refl|].
  split; [left; apply Qle_refl|done].
Qed.

Lemma four_way (I C P R S : Prop) :
  I /\ (C /\ P /\ R /\ S) <-> (I /\ C) /\ (I /\ P) /\ (I /\ R) /\ (I /\ S).
Proof. tauto. Qed.

(** X7: the four constraints act independently: an item passes the filter
    exactly when it passes each of the four filters that apply one
    constraint alone (the others left at "All" or 0). *)
Theorem filter_inventory_intersection cat max_price min_rating min_stock (w : World) :
  exists f fc fp fr fs,
    returned (filter_inventory cat max_price min_rating min_stock w) = Some f
    /\ returned (filter_inventory cat 0 0 0 w) = Some fc
    /\ returned (filter_inventory "All" max_price 0 0 w) = Some fp
    /\ returned (filter_inventory "All" 0 min_rating 0 w) = Some fr
    /\ returned (filter_inventory "All" 0 0 min_stock w) = Some fs
    /\ forall item, In item f <-> In item fc /\ In item fp /\ In item fr /\ In item fs.
Proof.
  eexists _, _, _, _, _.
  repeat (split; [apply filter_inventory_returned|]).
  intros item. rewrite !In_filter_keeps.
  rewrite keeps_category_only, keeps_price_only, keeps_rating_only, keeps_stock_only.
  unfold keeps. apply four_way.
Qed.

(** X8: loosening a threshold never loses an item. With a positive price
    ceiling raised, and the rating and stock floors lowered, the old result
    is a sub-list of the new one; and a ceiling of 0 is the loosest of all,
    not the tightest: every result is a sub-list of the result with
    max_price = 0. *)
Theorem filter_inventory_monotone cat (p1 p2 r1 r2 : Q) (s1 s2 : Z) (w : World) :
  (0 < p1)%Q -> (p1 <= p2)%Q -> (r2 <= r1)%Q -> (s2 <= s1)%Z ->
  exists f1 f2 f0,
    returned (filter_inventory cat p1 r1 s1 w) = Some f1
    /\ returned (filter_inventory cat p2 r2 s2 w) = Some f2
    /\ returned (filter_inventory cat 0 r1 s1 w) = Some f0
    /\ sublist f1 f2 /\ sublist f1 f0.
Proof.
  intros Hp1 Hp Hr Hs. eexists _, _, _.
  repeat (split; [apply filter_inventory_returned|]).
  split; apply filter_sublist_impl; intros a; rewrite !negb_true_iff, !skipped_false_iff;
    unfold keeps; intros (Hc & Hprice & Hrating & Hstock).
  - split; [done|]. split; [|split].
    + right. destruct Hprice as [H0|Hle]; [|by eapply Qle_trans].
      exfalso. by eapply Qlt_not_le.
    + destruct Hrating as [H0|Hle]; [left|right]; by eapply Qle_trans.
    + destruct Hstock; [left|right]; lia.
  - split; [done|]. split; [left; apply Qle_refl|done].
Qed.

Lemma filter_inventory_monotone_witness :
  exists f1 f2 f0,
    returned (filter_inventory "All" (10 # 1) (3 # 1) 20 ratings_world) = Some f1
    /\ returned (filter_inventory "All" (50 # 1) (2 # 1) 10 ratings_world) = Some f2
    /\ returned (filter_inventory "All" 0 (3 # 1) 20 ratings_world) = Some f0
    /\ sublist f1 f2 /\ sublist f1 f0.
Proof.
  apply (filter_inventory_monotone "All" (10 # 1) (50 # 1) (3 # 1) (2 # 1) 20 10 ratings_world);
    [reflexivity | discriminate | discriminate | lia].
Defined.

(** X9: the chosen category is compared without regard to case: two
    choices that differ only in case, neither being the sentinel "All",
    select the same items. *)
Theorem filter_inventory_category_case cat cat' max_price min_rating min_stock (w : World) :
  cat <> "All" -> cat' <> "All" -> lower cat = lower cat' ->
  returned (filter_inventory cat max_price min_rating min_stock w)
  = returned (filter_inventory cat' max_price min_rating min_stock w).
Proof.
  intros H1 H2 Hl. rewrite !filter_inventory_returned. f_equal.
  apply filter_ext. intros a. unfold skipped.
  apply String.eqb_neq in H1, H2. by rewrite H1, H2, Hl.
Qed.

Lemma filter_inventory_category_case_witness :
  returned (filter_inventory "FURNITURE" 0 0 0 ratings_world)
  = returned (filter_inventory "furniture" 0 0 0 ratings_world).
Proof.
  apply (filter_inventory_category_case "FURNITURE" "furniture" 0 0 0%Z ratings_world);
    [discriminate | discriminate | reflexivity].
Defined.

(** ** Summary statistics, continued *)
















(** ** Add, edit, delete, continued *)

Lemma rendered_app w w' xs : screen w' = screen w ++ xs -> rendered w w' = xs.
Proof. intros E. unfold rendered. by rewrite E, drop_app_length. Qed.

Ltac rendered_eq :=
  apply rendered_app; unfold say, says, set_disk, set_inventory, set_heap, set_screen;
  cbn; rewrite <- ?app_assoc; reflexivity.

(** The four ways a run of the mutation view can end. *)
Lemma manage_shape action w :
  match manage_inventory action w with
  | Returns _ w' =>
      writable w' = writable w
      /\ ((rendered w w' = [manage_header]
           /\ heap w' = heap w /\ inventory w' = inventory w /\ disk w' = disk w)
          \/ (rendered w w' = [manage_header; not_found]
              /\ heap w' = heap w /\ inventory w' = inventory w /\ disk w' = disk w)
          \/ (exists s, rendered w w' = [manage_header; Success s]
                        /\ disk w' = Some (JsonText (items_to_py (contents w')))
                        /\ writable w = true))
  | Raises e w' =>
      e = PermissionError /\ writable w = false /\ disk w' = disk w
      /\ rendered w w' = [manage_header]
  end.
Proof.
  destruct action as [|nm ct p s r [|]|text p s r sub|text [|]].
  - split; [done|]. left. split; [rendered_eq|done].
  - rewrite add_eval. cbv zeta. destruct (writable w) eqn:Hw.
    + split; [done|]. right. right. eexists. split; [rendered_eq|done].
    + split; [done|]. split; [done|]. split; [done|]. rendered_eq.
  - split; [done|]. left. split; [rendered_eq|done].
  - rewrite edit_eval. destruct (find _ _) as [m|].
    + destruct sub.
      * cbv zeta. destruct (writable w) eqn:Hw.
        -- split; [done|]. right. right. eexists. split; [rendered_eq|done].
        -- split; [done|]. split; [done|]. split; [done|]. rendered_eq.
      * split; [done|]. left. split; [rendered_eq|done].
    + split; [done|]. right. left. split; [apply rendered_says|done].
  - rewrite delete_eval. cbv zeta.
    destruct (Nat.ltb_spec (length (survivors (heap w) text (inventory w)))
                           (length (inventory w))) as [Hlt|Hge].
    + destruct (writable w) eqn:Hw.
      * split; [done|]. right. right. eexists. split; [rendered_eq|done].
      * split; [done|]. split; [done|]. split; [done|]. rendered_eq.
    + split; [done|]. right. left. split; [rendered_eq|].
      split; [done|]. split; [|done]. cbn.
      apply filter_same_length.
      pose proof (filter_length_le (fun item => negb (name_is (heap w) (lower text) item))
                                   (inventory w)) as Hle.
      unfold survivors in Hge. lia.
  - split; [done|]. left. split; [rendered_eq|done].
Qed.

(** X13: a success message is never shown for a change that is not on disk.
    Whenever the mutation view returns having rendered a success widget, the
    file is writable and holds exactly the collection as it now is in
    memory. *)
Theorem success_means_saved action (w w' : World) :
  manage_inventory action w = Returns tt w' ->
  (exists s, In (Success s) (rendered w w')) ->
  disk w' = Some (JsonText (items_to_py (contents w'))) /\ writable w = true.
Proof.
  intros Ho [s Hs]. pose proof (manage_shape action w) as H. rewrite Ho in H.
  destruct H as [_ [(Hr & _)|[(Hr & _)|(s' & Hr & Hd & Hw)]]]; [| |done];
    rewrite Hr in Hs; cbn in Hs; intuition discriminate.
Qed.

Lemma success_means_saved_witness :
  disk (final (manage_inventory (DeleteByName "y" true) names_world))
  = Some (JsonText (items_to_py
            (contents (final (manage_inventory (DeleteByName "y" true) names_world)))))
  /\ writable names_world = true.
Proof.
  apply (success_means_saved (DeleteByName "y" true) names_world
           (final (manage_inventory (DeleteByName "y" true) names_world))).
  - reflexivity.
  - exists "✅ Item deleted.". vm_compute. right. left. reflexivity.
Defined.

(** X14: a not-found warning means nothing happened: when the mutation view
    renders the warning, the items, the list and the file are exactly what
    they were. *)
Theorem warning_means_unchanged action (w w' : World) :
  manage_inventory action w = Returns tt w' ->
  (exists s, In (Warning s) (rendered w w')) ->
  heap w' = heap w /\ inventory w' = inventory w /\ disk w' = disk w.
Proof.
  intros Ho [s Hs]. pose proof (manage_shape action w) as H. rewrite Ho in H.
  destruct H as [_ [(Hr & _)|[(_ & H)|(s' & Hr & _)]]]; [|done|];
    rewrite Hr in Hs; cbn in Hs; intuition discriminate.
Qed.

Lemma warning_means_unchanged_witness :
  heap (final (manage_inventory (EditByName "q" 0 0 0 true) names_world)) = heap names_world
  /\ inventory (final (manage_inventory (EditByName "q" 0 0 0 true) names_world))
     = inventory names_world
  /\ disk (final (manage_inventory (EditByName "q" 0 0 0 true) names_world)) = disk names_world.
Proof.
  apply (warning_means_unchanged (EditByName "q" 0 0 0 true) names_world
           (final (manage_inventory (EditByName "q" 0 0 0 true) names_world))).
  - reflexivity.
  - exists "❌ Item not found.". vm_compute. right. left. reflexivity.
Defined.



(** The list and the items after the "Delete" button, saved or not. *)
Lemma delete_final text w :
  let w' := final (manage_inventory (DeleteByName text true) w) in
  inventory w' = survivors (heap w) text (inventory w) /\ heap w' = heap w.
Proof.
  cbv zeta. rewrite delete_eval. cbv zeta.
  destruct (_ <? _)%nat; [destruct (writable w)|]; done.
Qed.

(** The items and the list after "Edit by Name". *)
Lemma edit_final text p s r submitted w :
  let w' := final (manage_inventory (EditByName text p s r submitted) w) in
  inventory w' = inventory w
  /\ heap w' = match find (name_is (heap w) (lower text)) (inventory w), submitted with
               | Some m, true => <[m := edited p s r (deref (heap w) m)]> (heap w)
               | _, _ => heap w
               end.
Proof.
  cbv zeta. rewrite edit_eval. destruct (find _ _) as [m|]; [|done].
  destruct submitted; [|done]. cbv zeta. by destruct (writable w).
Qed.







Lemma filter_all_true {A} (f : A -> bool) (l : list A) :
  (forall x, In x l -> f x = true) -> List.filter f l = l.
Proof.
  induction l as [|a l IH]; intros H; [done|]. cbn.
  rewrite (H a) by (by left). f_equal. apply IH. intros x Hx. apply H. by right.
Qed.

(** X19: adding an item under a name nobody has and then deleting that name
    gives back the collection as it was, element for element. *)
Theorem add_then_delete nm ct p s r (w : World) :
  wf w ->
  Forall (fun a => lower (name (deref (heap w) a)) <> lower nm) (inventory w) ->
  let w1 := final (manage_inventory (Add nm ct p s r true) w) in
  let w2 := final (manage_inventory (DeleteByName nm true) w1) in
  inventory w2 = inventory w /\ contents w2 = contents w.
Proof.
  intros Hwf Hno w1 w2.
  pose proof (fresh_not_in_inventory w Hwf) as Hfresh.
  destruct (add_final nm ct p s r w) as [Hinv1 Hheap1]. fold w1 in Hinv1, Hheap1.
  destruct (delete_final nm w1) as [Hinv2 Hheap2]. fold w2 in Hinv2, Hheap2.
  set (a := fresh (dom (heap w))) in *.
  assert (Hs : survivors (heap w1) nm (inventory w1) = inventory w).
  { rewrite Hinv1, Hheap1. unfold survivors. rewrite List.filter_app. cbn [List.filter].
    unfold name_is at 2. rewrite deref_insert_eq. cbn [name].
    rewrite String.eqb_refl. cbn [negb]. rewrite app_nil_r.
    apply filter_all_true. intros b Hb.
    apply negb_true_iff, name_is_false.
    rewrite deref_insert_ne; [|by intros ->].
    rewrite Forall_forall in Hno. apply Hno. by apply list_elem_of_In. }
  split; [by rewrite Hinv2|].
  unfold contents. rewrite Hinv2, Hheap2, Hs, Hheap1.
  by apply map_deref_insert_fresh.
Qed.

Lemma add_then_delete_witness :
  wf names_world
  /\ inventory (final (manage_inventory (DeleteByName "New" true)
                        (final (manage_inventory (Add "New" "Toys" 0 0 0 true) names_world))))
     = inventory names_world.
Proof.
  split; [exact wf_names_world|].
  refine (proj1 (add_then_delete "New" "Toys" 0 0%Z 0 names_world wf_names_world _)).
  cbn. repeat constructor; discriminate.
Defined.

(** X20: what a successful change leaves for the next session. After any
    run of the mutation view that rendered a success message,
    [load_inventory] returns the collection as it now is, unless that
    collection is empty: having deleted the last item, the next load finds an
    "empty" file and returns the fallback dataset. *)
Theorem mutation_then_load (fb : PyVal) action (w w' : World) :
  manage_inventory action w = Returns tt w' ->
  (exists s, In (Success s) (rendered w w')) ->
  load_inventory fb w'
  = match inventory w' with
    | [] => Returns fb (say info_empty w')
    | _ => Returns (items_to_py (contents w')) w'
    end.
Proof.
  intros Ho [s Hs]. pose proof (manage_shape action w) as H. rewrite Ho in H.
  destruct H as [_ [(Hr & _)|[(Hr & _)|(s' & Hr & Hd & Hw)]]];
    [rewrite Hr in Hs; cbn in Hs; intuition discriminate..|].
  rewrite load_inventory_eval, Hd, truthy_items_to_py.
  unfold contents. rewrite length_map. by destruct (inventory w').
Qed.

Lemma mutation_then_load_witness :
  load_inventory (PyStr "fallback")
    (final (manage_inventory (DeleteByName "pen" true) (set_inventory [0] ratings_world)))
  = Returns (PyStr "fallback")
      (say info_empty
         (final (manage_inventory (DeleteByName "pen" true) (set_inventory [0] ratings_world)))).
Proof.
  apply (mutation_then_load (PyStr "fallback") (DeleteByName "pen" true)
           (set_inventory [0] ratings_world)
           (final (manage_inventory (DeleteByName "pen" true) (set_inventory [0] ratings_world)))).
  - reflexivity.
  - exists "✅ Item deleted.". vm_compute. right. left. reflexivity.
Defined.

Lemma find_ext_eq {A} (f g : A -> bool) (l : list A) :
  (forall x, f x = g x) -> find f l = find g l.
Proof.
  intros H. induction l as [|a l IH]; [done|]. cbn. by rewrite H, IH.
Qed.

(** Overwriting price, stock and rating of a dictionary does not change
    which names match. *)
Lemma name_is_edited h m p s r key a :
  name_is (<[m := edited p s r (deref h m)]> h) key a = name_is h key a.
Proof.
  unfold name_is. destruct (decide (m = a)) as [->|Hne].
  - by rewrite deref_insert_eq.
  - by rewrite deref_insert_ne.
Qed.

(** X21: "Edit by Name" never renames, recategorises, adds or removes:
    whatever its inputs and whether or not the write succeeds, the list is
    the same list and the names and categories of the collection, position
    by position, are what they were. *)
Theorem edit_keeps_names text p s r submitted (w : World) :
  let w1 := final (manage_inventory (EditByName text p s r submitted) w) in
  inventory w1 = inventory w
  /\ map name (contents w1) = map name (contents w)
  /\ map category (contents w1) = map category (contents w).
Proof.
  intros w1. destruct (edit_final text p s r submitted w) as [Hinv Hheap].
  fold w1 in Hinv, Hheap. split; [done|].
  unfold contents. rewrite Hinv, Hheap, !map_map.
  destruct (find _ _) as [m|]; [|done]. destruct submitted; [|done].
  split; apply map_ext; intros a; (destruct (decide (m = a)) as [->|Hne];
    [by rewrite deref_insert_eq | by rewrite deref_insert_ne]).
Qed.

(** X22: edits are not cumulative: of two submitted edits of the same name,
    the second decides. The items after both are the items after the second
    alone. *)
Theorem edit_twice text p s r p' s' r' (w : World) :
  let w1 := final (manage_inventory (EditByName text p s r true) w) in
  heap (final (manage_inventory (EditByName text p' s' r' true) w1))
  = heap (final (manage_inventory (EditByName text p' s' r' true) w)).
Proof.
  intros w1.
  destruct (edit_final text p s r true w) as [Hinv Hheap]. fold w1 in Hinv, Hheap.
  destruct (edit_final text p' s' r' true w1) as [_ ->].
  destruct (edit_final text p' s' r' true w) as [_ ->].
  rewrite Hinv, Hheap.
  destruct (find (name_is (heap w) (lower text)) (inventory w)) as [m|] eqn:Hf.
  - rewrite (find_ext_eq _ (name_is (heap w) (lower text))), Hf
      by (intros a; apply name_is_edited).
    by rewrite deref_insert_eq, insert_insert_eq.
  - by rewrite Hf.
Qed.

(** ** The views in sequence *)




Lemma length_filter_map {A B} (f : B -> bool) (g : A -> B) (l : list A) :
  length (List.filter f (map g l)) = length (List.filter (fun x => f (g x)) l).
Proof.
  induction l as [|a l IH]; [done|]. cbn. destruct (f (g a)); cbn; by rewrite IH.
Qed.

(** X24: a bar of the chart never shows more items than the filter lists
    for that category. The chart counts the items that spell the category
    exactly; the filter, folding case, keeps at least those. *)
Theorem chart_bar_at_most_filter (w : World) (m : gmap string nat) (c : string) (n : nat) :
  returned (show_charts w) = Some (Some m) ->
  m !! c = Some n ->
  exists filtered,
    returned (filter_inventory c 0 0 0 w) = Some filtered
    /\ (n <= length filtered)%nat.
Proof.
  rewrite show_charts_eval. cbn [returned]. intros Hm Hc.
  eexists. split; [apply filter_inventory_returned|].
  destruct (inventory w) as [|a l] eqn:E; [done|]. injection Hm as <-.
  rewrite category_counts_lookup in Hc. case_decide; [done|]. injection Hc as <-.
  unfold py_count, categories_of. rewrite E, length_filter_map.
  apply sublist_length, filter_sublist_impl. intros x Hx.
  apply String.eqb_eq in Hx. unfold skipped. rewrite <- Hx, String.eqb_refl.
  cbn [negb]. by rewrite andb_false_r.
Qed.

Lemma chart_bar_at_most_filter_witness :
  exists filtered,
    returned (filter_inventory "Furniture" 0 0 0 ratings_world) = Some filtered
    /\ (2 <= length filtered)%nat.
Proof.
  apply (chart_bar_at_most_filter ratings_world
           (category_counts (categories_of ratings_world)) "Furniture" 2);
    reflexivity.
Defined.
